(** * Chordify: a shallow embedding of [src/node.py] ([ChordNode])

    The Python node keeps its state in the attributes of a [ChordNode]
    object and talks to peers with one JSON message per TCP connection.
    This development models
    - the decoded JSON values exchanged on the wire ([json]);
    - the few Python operations the code applies to them ([dict.get],
      subscript, [==], chained [<]/[<=], [str.encode], f-string formatting);
    - the node's attributes as a record ([node]) and every method as a
      state-and-exception computation ([M]);
    - [hashlib.sha1] and the outbound socket call [send_request] as
      parameters of a Section: the digest is a library function and the
      answer of a remote peer is whatever that peer sends. *)

From Stdlib Require Import ZArith Ascii String List.
From stdpp Require Import base gmap strings list pretty.
Import ListNotations.

Local Set Warnings "-register-all".
Open Scope Z_scope.

(* ------------------------------------------------------------------ *)
(** ** Decoded JSON values *)

(** A value produced by [json.loads].  JSON numbers are modelled as
    Python [int]s (the protocol only carries integer ids and ports);
    Python [str]s are modelled by [string], i.e. strings whose code
    points are below 256.  An object is the decoded [dict], with its keys
    in insertion order. *)
Inductive json : Type :=
  | JNull : json
  | JBool : bool -> json
  | JInt : Z -> json
  | JStr : string -> json
  | JList : list json -> json
  | JObj : list (string * json) -> json.

(** Python exceptions the handlers can raise. *)
Inductive exn : Type :=
  | AttributeError
  | KeyError
  | TypeError.

Inductive result (A : Type) : Type :=
  | Ok : A -> result A
  | Raise : exn -> result A.
Arguments Ok {A} _.
Arguments Raise {A} _.

(* ------------------------------------------------------------------ *)
(** ** The Python operations used by the code *)

(** [d[k]] on a dict: the last binding of [k] (later keys of a literal or
    of a JSON text overwrite earlier ones). *)
Definition dict_lookup (fields : list (string * json)) (k : string) : option json :=
  fold_left (fun acc kv => if String.eqb (fst kv) k then Some (snd kv) else acc)
            fields None.

(** [o.get(k)]: [None] when the key is missing; [AttributeError] when [o]
    is not a dict. *)
Definition py_get (o : json) (k : string) : result json :=
  match o with
  | JObj fs => match dict_lookup fs k with Some v => Ok v | None => Ok JNull end
  | _ => Raise AttributeError
  end.

(** [o[k]] with a string [k]: [KeyError] on a dict without [k],
    [TypeError] on anything else (list, str, None, int, bool). *)
Definition py_subscript (o : json) (k : string) : result json :=
  match o with
  | JObj fs => match dict_lookup fs k with Some v => Ok v | None => Raise KeyError end
  | _ => Raise TypeError
  end.

(** The numeric value of a Python number ([bool] is a subclass of [int]). *)
Definition py_num (o : json) : option Z :=
  match o with
  | JInt z => Some z
  | JBool b => Some (if b then 1 else 0)
  | _ => None
  end.

(** [o == z] for an [int] [z]. *)
Definition py_eq_int (o : json) (z : Z) : bool :=
  match py_num o with Some n => Z.eqb n z | None => false end.

(** [o == s] for a [str] literal [s]. *)
Definition py_eq_str (o : json) (s : string) : bool :=
  match o with JStr s' => String.eqb s' s | _ => false end.

(** [a < b] and [a <= b] where one side is already known to be a number:
    any non-number on the other side raises [TypeError]. *)
Definition py_lt (a b : json) : result bool :=
  match py_num a, py_num b with
  | Some x, Some y => Ok (Z.ltb x y)
  | _, _ => Raise TypeError
  end.

Definition py_le (a b : json) : result bool :=
  match py_num a, py_num b with
  | Some x, Some y => Ok (Z.leb x y)
  | _, _ => Raise TypeError
  end.

(** [str(n)] on an [int]. *)
Definition py_int_str (z : Z) : string := pretty z.

(** *** [str.encode()]: UTF-8 *)

(** Bytes are 8-bit integers. *)
Definition bytes := list Z.

(** UTF-8 encoding of one code point below 256. *)
Definition utf8_char (c : ascii) : bytes :=
  let n := Z.of_nat (nat_of_ascii c) in
  if Z.ltb n 128 then [n]
  else [192 + n / 64; 128 + n mod 64].

Fixpoint utf8_encode (s : string) : bytes :=
  match s with
  | EmptyString => []
  | String c r => utf8_char c ++ utf8_encode r
  end.

(** [key.encode()]: only a [str] has an [encode] method. *)
Definition py_encode (o : json) : result bytes :=
  match o with
  | JStr s => Ok (utf8_encode s)
  | _ => Raise AttributeError
  end.

(** *** f-string formatting ([str] and [repr]) *)

Definition hex_digit (n : nat) : ascii :=
  match String.get n "0123456789abcdef" with Some c => c | None => "0"%char end.

(** [\xNN] escape of a code point below 256. *)
Definition hex_escape (n : nat) : string :=
  String "\" (String "x" (String (hex_digit (n / 16)) (String (hex_digit (n mod 16)) EmptyString))).

(** [str.isprintable] on a code point below 256. *)
Definition printable (n : nat) : bool :=
  negb (n <? 32)%nat && negb (n =? 127)%nat
  && negb ((128 <=? n)%nat && (n <=? 160)%nat) && negb (n =? 173)%nat.

Fixpoint str_contains (c : ascii) (s : string) : bool :=
  match s with
  | EmptyString => false
  | String c' r => Ascii.eqb c c' || str_contains c r
  end.

Definition repr_char (quote : ascii) (c : ascii) : string :=
  let n := nat_of_ascii c in
  if Ascii.eqb c quote || Ascii.eqb c "\"%char then String "\" (String c EmptyString)
  else if (n =? 9)%nat then "\t"
  else if (n =? 10)%nat then "\n"
  else if (n =? 13)%nat then "\r"
  else if printable n then String c EmptyString
  else hex_escape n.

Fixpoint repr_chars (quote : ascii) (s : string) : string :=
  match s with
  | EmptyString => EmptyString
  | String c r => repr_char quote c +:+ repr_chars quote r
  end.

Definition dquote : ascii := ascii_of_nat 34.

(** [repr] of a [str]: single quotes, unless the text has a single quote
    and no double quote. *)
Definition repr_str (s : string) : string :=
  let quote := if str_contains "'"%char s && negb (str_contains dquote s)
               then dquote else "'"%char in
  String quote (repr_chars quote s +:+ String quote EmptyString).

Definition join_comma (l : list string) : string :=
  match l with
  | [] => EmptyString
  | x :: r => fold_left (fun acc y => acc +:+ ", " +:+ y) r x
  end.

Fixpoint py_repr (o : json) : string :=
  match o with
  | JNull => "None"
  | JBool true => "True"
  | JBool false => "False"
  | JInt z => py_int_str z
  | JStr s => repr_str s
  | JList l => "[" +:+ join_comma (map py_repr l) +:+ "]"
  | JObj fs => "{" +:+ join_comma (map (fun kv => repr_str (fst kv) +:+ ": " +:+ py_repr (snd kv)) fs) +:+ "}"
  end.

(** [f"{o}"], i.e. [str(o)]: a [str] is inserted as it is, anything else
    as its [repr]. *)
Definition py_format (o : json) : string :=
  match o with
  | JStr s => s
  | _ => py_repr o
  end.

(* ------------------------------------------------------------------ *)
(** ** The node's attributes *)

(** The attributes of a [ChordNode] object.  [predecessor] is [None]
    while the Python attribute holds [None]; [successor] is [None] while
    the attribute has not been assigned yet (reading it then raises
    [AttributeError]).  Both hold the dict they were assigned. *)
Record node : Type := mkNode {
  ip : string;
  port : Z;
  node_id : Z;
  data_store : gmap Z json;
  predecessor : option json;
  successor : option json
}.

Definition set_data_store (s : node) (d : gmap Z json) : node :=
  mkNode (ip s) (port s) (node_id s) d (predecessor s) (successor s).
Definition set_predecessor (s : node) (p : option json) : node :=
  mkNode (ip s) (port s) (node_id s) (data_store s) p (successor s).
Definition set_successor (s : node) (p : option json) : node :=
  mkNode (ip s) (port s) (node_id s) (data_store s) (predecessor s) p.

(** A node descriptor as the code builds it:
    [{"node_id": id, "ip": ip, "port": port}]. *)
Definition descriptor (id : Z) (i : string) (p : Z) : json :=
  JObj [("node_id", JInt id); ("ip", JStr i); ("port", JInt p)].

(* ------------------------------------------------------------------ *)
(** ** Methods: state passing with Python exceptions *)

(** A method call reads and updates the node's attributes and either
    returns or raises; attributes assigned before a [raise] stay assigned. *)
Definition M (A : Type) : Type := node -> result A * node.

Definition retM {A} (a : A) : M A := fun s => (Ok a, s).
Definition raiseM {A} (e : exn) : M A := fun s => (Raise e, s).
Definition bindM {A B} (m : M A) (f : A -> M B) : M B :=
  fun s => match m s with
           | (Ok a, s') => f a s'
           | (Raise e, s') => (Raise e, s')
           end.
Definition liftR {A} (r : result A) : M A :=
  fun s => match r with Ok a => (Ok a, s) | Raise e => (Raise e, s) end.
Definition getsM {A} (f : node -> A) : M A := fun s => (Ok (f s), s).
Definition modifyM (f : node -> node) : M unit := fun s => (Ok tt, f s).

Notation "'let!' x ':=' m 'in' k" := (bindM m (fun x => k))
  (at level 200, x name, m at level 100, k at level 200).

(** Reading [self.successor]. *)
Definition get_successor : M json :=
  fun s => match successor s with
           | Some j => (Ok j, s)
           | None => (Raise AttributeError, s)
           end.

(** [try: body except Exception: print(...)]. *)
Definition catch_all (m : M unit) : M unit :=
  fun s => match m s with (_, s') => (Ok tt, s') end.

(** The JSON objects the handlers return. *)
Definition status_message (status msg : string) : json :=
  JObj [("status", JStr status); ("message", JStr msg)].
Definition successor_answer (succ : json) : json :=
  JObj [("status", JStr "success"); ("successor", succ)].
Definition value_answer (v : json) : json :=
  JObj [("status", JStr "success"); ("value", v)].

Section Node.

(** [int(hashlib.sha1(b).hexdigest(), 16)]. *)
Variable sha1_int : bytes -> Z.

(** [send_request(ip, port, request)]: the decoded answer of the peer, or
    [{"status": "error", "message": str(e)}] when the exchange fails; the
    method catches every exception, so it always returns a value. *)
Variable send_request : json -> json -> json -> json.

(** [generate_id]: [int(sha1(f"{ip}:{port}".encode()).hexdigest(), 16) % 2**160]. *)
Definition generate_id (i : string) (p : Z) : Z :=
  sha1_int (utf8_encode (i +:+ ":" +:+ py_int_str p)) mod 2 ^ 160.

(** The hashed key of [insert], [query] and [delete]. *)
Definition hash_bytes (b : bytes) : Z := sha1_int b mod 2 ^ 160.

(** [insert(key, value)]. *)
Definition insert (key value : json) : M json :=
  let! b := liftR (py_encode key) in
  let hashed_key := hash_bytes b in
  let! d := getsM data_store in
  let! _ := modifyM (fun s => set_data_store s (<[hashed_key := value]> d)) in
  retM (status_message "success" ("Inserted " +:+ py_format key +:+ " -> " +:+ py_format value)).

(** [query(key)]. *)
Definition query (key : json) : M json :=
  let! b := liftR (py_encode key) in
  let hashed_key := hash_bytes b in
  let! d := getsM data_store in
  match d !! hashed_key with
  | Some v => retM (value_answer v)
  | None => retM (status_message "error" "Key not found")
  end.

(** [delete(key)]. *)
Definition delete_key (key : json) : M json :=
  let! b := liftR (py_encode key) in
  let hashed_key := hash_bytes b in
  let! d := getsM data_store in
  match d !! hashed_key with
  | Some _ =>
      let! _ := modifyM (fun s => set_data_store s (delete hashed_key d)) in
      retM (status_message "success" ("Deleted " +:+ py_format key))
  | None => retM (status_message "error" "Key not found")
  end.

(** [find_successor(node_id)].  The chained comparison
    [self.node_id < node_id <= self.successor["node_id"]] evaluates its
    second test only when the first holds. *)
Definition find_successor (target : json) : M json :=
  let! succ := get_successor in
  let! sid := liftR (py_subscript succ "node_id") in
  let! self_id := getsM node_id in
  if py_eq_int sid self_id then retM (successor_answer succ)
  else
    let! lo := liftR (py_lt (JInt self_id) target) in
    let! inside := (if lo then liftR (py_le target sid) else retM false) in
    if inside then retM (successor_answer succ)
    else
      let forward_request :=
        JObj [("command", JStr "find_successor"); ("node_id", target)] in
      let! sip := liftR (py_subscript succ "ip") in
      let! sport := liftR (py_subscript succ "port") in
      retM (send_request sip sport forward_request).

(** [update_predecessor(node_id, ip, port)]. *)
Definition update_predecessor (nid i p : json) : M json :=
  let! _ := modifyM (fun s =>
    set_predecessor s (Some (JObj [("node_id", nid); ("ip", i); ("port", p)]))) in
  retM (status_message "success" "Predecessor updated").

(** [process_request(request)]. *)
Definition process_request (request : json) : M json :=
  let! command := liftR (py_get request "command") in
  let! key := liftR (py_get request "key") in
  let! value := liftR (py_get request "value") in
  let! nid := liftR (py_get request "node_id") in
  if py_eq_str command "insert" then insert key value
  else if py_eq_str command "query" then query key
  else if py_eq_str command "delete" then delete_key key
  else if py_eq_str command "find_successor" then find_successor nid
  else if py_eq_str command "update_predecessor" then
    let! i := liftR (py_subscript request "ip") in
    let! p := liftR (py_subscript request "port") in
    update_predecessor nid i p
  else retM (status_message "error" ("Invalid command received: " +:+ py_format command)).

(** What [conn.recv(1024).decode()] followed by [json.loads] yields. *)
Inductive received : Type :=
  | RecvEmpty                 (** [data] is the empty string *)
  | RecvUndecodable           (** [decode] or [json.loads] raises *)
  | RecvJson (request : json). (** the decoded request *)

(** [handle_request(conn)]: the response sent on the connection, if any.
    Every exception is caught and the connection is closed. *)
Definition handle_request (r : received) (s : node) : option json * node :=
  match r with
  | RecvEmpty | RecvUndecodable => (None, s)
  | RecvJson request =>
      match process_request request s with
      | (Ok response, s') => (Some response, s')
      | (Raise _, s') => (None, s')
      end
  end.

(** [join(bootstrap_ip, bootstrap_port)]. *)
Definition join (bootstrap_ip : string) (bootstrap_port : Z) : M unit :=
  catch_all (
    let! self_id := getsM node_id in
    let request := JObj [("command", JStr "find_successor"); ("node_id", JInt self_id)] in
    let successor_response := send_request (JStr bootstrap_ip) (JInt bootstrap_port) request in
    let! st := liftR (py_subscript successor_response "status") in
    if py_eq_str st "success" then
      let! succ := liftR (py_subscript successor_response "successor") in
      let! _ := modifyM (fun s => set_successor s (Some succ)) in
      let! self_ip := getsM ip in
      let! self_port := getsM port in
      let update_predecessor_request :=
        JObj [("command", JStr "update_predecessor"); ("node_id", JInt self_id);
              ("ip", JStr self_ip); ("port", JInt self_port)] in
      let! sip := liftR (py_subscript succ "ip") in
      let! sport := liftR (py_subscript succ "port") in
      let _update_response := send_request sip sport update_predecessor_request in
      retM tt
    else
      let! _msg := liftR (py_subscript successor_response "message") in
      retM tt).

(** Python truthiness of [bootstrap_ip and bootstrap_port]; [None] stands
    for the argument left at its default [None]. *)
Definition bootstrap_address (bootstrap_ip : option string) (bootstrap_port : option Z)
  : option (string * Z) :=
  match bootstrap_ip, bootstrap_port with
  | Some bi, Some bp =>
      if negb (String.eqb bi EmptyString) && negb (Z.eqb bp 0) then Some (bi, bp) else None
  | _, _ => None
  end.

(** [ChordNode.__init__] up to the start of the server thread: the
    attributes once the successor has been set up (the constructor then
    starts the listener and sleeps forever). *)
Definition chord_init (i : string) (p : Z)
    (bootstrap_ip : option string) (bootstrap_port : option Z) : node :=
  let s0 := mkNode i p (generate_id i p) ∅ None None in
  match bootstrap_address bootstrap_ip bootstrap_port with
  | Some (bi, bp) => snd (join bi bp s0)
  | None => set_successor s0 (Some (descriptor (node_id s0) i p))
  end.

(** [join_network(bootstrap_ip, bootstrap_port)] (a method no caller
    uses): the successor becomes the tuple [(bootstrap_ip, bootstrap_port)].
    A two-element tuple is held as a two-element [JList]: like a tuple it
    is no dict, so subscripting it with a string raises [TypeError]. *)
Definition join_network (bootstrap_ip : string) (bootstrap_port : Z) : M unit :=
  modifyM (fun s => set_successor s (Some (JList [JStr bootstrap_ip; JInt bootstrap_port]))).

(** *** Process start-up ([if __name__ == "__main__"]) *)

(** [str.isspace] on a code point below 256. *)
Definition py_isspace (c : ascii) : bool :=
  let n := nat_of_ascii c in
  ((9 <=? n)%nat && (n <=? 13)%nat) || ((28 <=? n)%nat && (n <=? 32)%nat)
  || (n =? 133)%nat || (n =? 160)%nat.

Fixpoint drop_space (l : list ascii) : list ascii :=
  match l with
  | c :: r => if py_isspace c then drop_space r else l
  | [] => []
  end.

(** [s.strip()] on the characters of [s]. *)
Definition py_strip (l : list ascii) : list ascii := rev (drop_space (rev (drop_space l))).

Definition digit_value (c : ascii) : option Z :=
  let n := nat_of_ascii c in
  if (48 <=? n)%nat && (n <=? 57)%nat then Some (Z.of_nat n - 48) else None.

(** Decimal digits, an underscore allowed only between two digits;
    [after_digit] tells whether the previous character was a digit. *)
Fixpoint parse_digits (acc : Z) (after_digit : bool) (l : list ascii) : option Z :=
  match l with
  | [] => if after_digit then Some acc else None
  | c :: r =>
      match digit_value c with
      | Some d => parse_digits (acc * 10 + d) true r
      | None => if Ascii.eqb c "_"%char && after_digit then parse_digits acc false r else None
      end
  end.

(** [int(s)] on a [str]: surrounding white space, an optional sign, then
    the digits; [None] when Python raises [ValueError]. *)
Definition py_int (s : string) : option Z :=
  match py_strip (list_ascii_of_string s) with
  | c :: r =>
      if Ascii.eqb c "-"%char then option_map Z.opp (parse_digits 0 false r)
      else if Ascii.eqb c "+"%char then parse_digits 0 false r
      else parse_digits 0 false (c :: r)
  | [] => None
  end.

(** How the script ends up: the usage text and [sys.exit(1)], an
    uncaught [ValueError] from [int(...)], or a running node with the
    attributes [__init__] set up. *)
Inductive launch : Type :=
  | ExitUsage (status : Z)
  | ValueErrorRaised
  | Running (n : node).

(** The [__main__] block on [sys.argv] (the script name first). *)
Definition main_launch (argv : list string) : launch :=
  match argv with
  | [_; i; p] =>
      match py_int p with
      | Some pz => Running (chord_init i pz None None)
      | None => ValueErrorRaised
      end
  | [_; i; p; bi; bp] =>
      match py_int p with
      | Some pz =>
          match py_int bp with
          | Some bpz => Running (chord_init i pz (Some bi) (Some bpz))
          | None => ValueErrorRaised
          end
      | None => ValueErrorRaised
      end
  | _ => ExitUsage 1
  end.

End Node.

(* ------------------------------------------------------------------ *)
(** ** Concrete parameters for scenarios *)

(** A stand-in for the digest in concrete runs: the sum of the bytes. *)
Definition sample_sha1 (b : bytes) : Z := fold_left Z.add b 0.

(** A network on which every connection is refused: [send_request]
    returns its error object. *)
Definition refused_network (i p request : json) : json :=
  status_message "error" "[Errno 111] Connection refused".

(** A network whose every peer answers [find_successor] with the
    descriptor of a node at 127.0.0.1:5000 and acknowledges the rest. *)
Definition answering_network (i p request : json) : json :=
  match py_get request "command" with
  | Ok c => if py_eq_str c "find_successor"
            then successor_answer (descriptor (generate_id sample_sha1 "127.0.0.1" 5000) "127.0.0.1" 5000)
            else status_message "success" "Predecessor updated"
  | Raise _ => status_message "error" "bad request"
  end.

(** A node at 127.0.0.1:5001 that joined through 127.0.0.1:5000. *)
Definition joined_node : node :=
  chord_init sample_sha1 answering_network "127.0.0.1" 5001 (Some "127.0.0.1"%string) (Some 5000).

(** A lone bootstrap node at 127.0.0.1:5000. *)
Definition bootstrap_node : node :=
  chord_init sample_sha1 refused_network "127.0.0.1" 5000 None None.

(* ------------------------------------------------------------------ *)
(** ** Facts about the Python operations *)

Lemma py_eq_str_true (c : json) (n : string) :
  py_eq_str c n = true -> c = JStr n.
Proof.
  destruct c; cbn; try discriminate.
  intros H. apply String.eqb_eq in H. now subst.
Qed.

Lemma py_int_str_examples :
  py_int_str 5000 = "5000"%string /\ py_int_str (-3) = "-3"%string /\ py_int_str 0 = "0"%string.
Proof. repeat split; reflexivity. Qed.

Lemma utf8_encode_examples :
  utf8_encode "127.0.0.1:5000" = [49; 50; 55; 46; 48; 46; 48; 46; 49; 58; 53; 48; 48; 48]
  /\ utf8_encode (String (ascii_of_nat 233) EmptyString) = [195; 169].
Proof. split; reflexivity. Qed.

Lemma py_format_examples :
  py_format JNull = "None"%string /\ py_format (JStr "put") = "put"%string
  /\ py_format (JList [JStr "it's"; JInt 2]) = String "[" (String dquote ("it's" +:+ String dquote ", 2]")).
Proof. repeat split; reflexivity. Qed.

Section Proofs.

Variable sha1_int : bytes -> Z.
Variable send_request : json -> json -> json -> json.

(** *** Frame lemmas *)

Lemma join_frame (b : string) (q : Z) (s : node) :
  let s' := snd (join send_request b q s) in
  node_id s' = node_id s /\ ip s' = ip s /\ port s' = port s /\
  predecessor s' = predecessor s /\ data_store s' = data_store s.
Proof.
  unfold join, catch_all, bindM, liftR, getsM, modifyM, retM.
  cbn zeta.
  destruct (py_subscript _ "status") as [st|]; cbn; [|tauto].
  destruct (py_eq_str st "success").
  - destruct (py_subscript _ "successor") as [succ|]; cbn; [|tauto].
    destruct (py_subscript succ "ip"); cbn; [|tauto].
    destruct (py_subscript succ "port"); cbn; tauto.
  - destruct (py_subscript _ "message"); cbn; tauto.
Qed.

Lemma insert_frame (k v : json) (s : node) :
  let s' := snd (insert sha1_int k v s) in
  ip s' = ip s /\ port s' = port s /\ node_id s' = node_id s /\
  predecessor s' = predecessor s /\ successor s' = successor s.
Proof. unfold insert, bindM, liftR. destruct (py_encode k); cbn; tauto. Qed.

Lemma query_state (k : json) (s : node) : snd (query sha1_int k s) = s.
Proof.
  unfold query, bindM, liftR, getsM.
  destruct (py_encode k); cbn; [destruct (_ !! _)|]; reflexivity.
Qed.

Lemma delete_frame (k : json) (s : node) :
  let s' := snd (delete_key sha1_int k s) in
  ip s' = ip s /\ port s' = port s /\ node_id s' = node_id s /\
  predecessor s' = predecessor s /\ successor s' = successor s.
Proof.
  unfold delete_key, bindM, liftR, getsM.
  destruct (py_encode k); cbn; [destruct (_ !! _)|]; cbn; tauto.
Qed.

Lemma find_successor_state (x : json) (s : node) : snd (find_successor send_request x s) = s.
Proof.
  unfold find_successor, bindM, liftR, getsM, get_successor, retM.
  destruct (successor s) as [succ|]; [|reflexivity].
  destruct (py_subscript succ "node_id") as [sid|]; [|reflexivity].
  destruct (py_eq_int sid (node_id s)); [reflexivity|].
  destruct (py_lt (JInt (node_id s)) x) as [[]|]; cbn; try reflexivity;
    [destruct (py_le x sid) as [[]|]; cbn; try reflexivity|];
    destruct (py_subscript succ "ip"); cbn; try reflexivity;
    destruct (py_subscript succ "port"); reflexivity.
Qed.

Lemma update_predecessor_frame (nid i p : json) (s : node) :
  let s' := snd (update_predecessor nid i p s) in
  ip s' = ip s /\ port s' = port s /\ node_id s' = node_id s /\
  data_store s' = data_store s /\ successor s' = successor s.
Proof. cbn. tauto. Qed.


Lemma py_get_obj (fs : list (string * json)) (k : string) :
  py_get (JObj fs) k = Ok (match dict_lookup fs k with Some v => v | None => JNull end).
Proof. cbn. destruct (dict_lookup fs k); reflexivity. Qed.

(** A relation between the state before and after a request holds when it
    holds for every branch [process_request] can take. *)
Lemma process_request_step (P : node -> node -> Prop) (req : json) (s : node) :
  P s s ->
  (forall k v, P s (snd (insert sha1_int k v s))) ->
  (forall k, P s (snd (delete_key sha1_int k s))) ->
  (py_get req "command" = Ok (JStr "update_predecessor") ->
     forall nid i p, P s (snd (update_predecessor nid i p s))) ->
  P s (snd (process_request sha1_int send_request req s)).
Proof.
  intros Hrefl Hins Hdel Hupd.
  destruct req as [| | | | |fs]; try exact Hrefl.
  unfold process_request. rewrite !py_get_obj. cbn [bindM liftR].
  rewrite py_get_obj in Hupd.
  set (c := match dict_lookup fs "command" with Some v => v | None => JNull end) in *.
  destruct (py_eq_str c "insert"); [apply Hins|].
  destruct (py_eq_str c "query"); [rewrite query_state; exact Hrefl|].
  destruct (py_eq_str c "delete"); [apply Hdel|].
  destruct (py_eq_str c "find_successor"); [rewrite find_successor_state; exact Hrefl|].
  destruct (py_eq_str c "update_predecessor") eqn:E; [|exact Hrefl].
  apply py_eq_str_true in E.
  destruct (py_subscript (JObj fs) "ip"); [|exact Hrefl]. cbn [bindM liftR].
  destruct (py_subscript (JObj fs) "port"); [|exact Hrefl]. cbn [bindM liftR].
  apply Hupd. now rewrite E.
Qed.

(** *** Routing *)

(** C1: on a node whose successor [{node_id: sid, ip, port}] is not
    itself ([sid <> self_id]), [find_successor(t)] answers with the
    successor exactly when [self_id < t <= sid] (plain integer order);
    otherwise it returns, unmodified, the answer of the successor to the
    request [{"command": "find_successor", "node_id": t}].  The node's
    attributes are unchanged. *)
Theorem find_successor_interval_or_forward (s : node) (sid : Z) (sip : string) (sport t : Z) :
  successor s = Some (descriptor sid sip sport) ->
  sid <> node_id s ->
  find_successor send_request (JInt t) s =
    (Ok (if (node_id s <? t) && (t <=? sid)
         then successor_answer (descriptor sid sip sport)
         else send_request (JStr sip) (JInt sport)
                (JObj [("command", JStr "find_successor"); ("node_id", JInt t)])), s).
Proof.
  intros Hs Hne.
  unfold find_successor, bindM, get_successor, getsM, liftR, retM.
  rewrite Hs. cbn.
  replace (sid =? node_id s) with false by (symmetry; now apply Z.eqb_neq).
  destruct (node_id s <? t); cbn; [destruct (t <=? sid)|]; reflexivity.
Qed.

(** C2: a node built without a bootstrap address has its own descriptor
    as successor, whose [node_id] is its own id, and [find_successor(x)]
    answers that descriptor for every [x]; more generally, on any node
    whose successor's [node_id] equals its own id, [find_successor(x)]
    answers the successor descriptor for every [x]. *)
Theorem single_node_ring_answers_self :
  (forall (i : string) (p : Z) (x : json),
     let s := chord_init sha1_int send_request i p None None in
     node_id s = generate_id sha1_int i p /\
     successor s = Some (descriptor (node_id s) i p) /\
     py_subscript (descriptor (node_id s) i p) "node_id" = Ok (JInt (node_id s)) /\
     find_successor send_request x s = (Ok (successor_answer (descriptor (node_id s) i p)), s)) /\
  (forall (s : node) (succ n x : json),
     successor s = Some succ ->
     py_subscript succ "node_id" = Ok n ->
     py_eq_int n (node_id s) = true ->
     find_successor send_request x s = (Ok (successor_answer succ), s)).
Proof.
  assert (Hgen : forall (s : node) (succ n x : json),
     successor s = Some succ ->
     py_subscript succ "node_id" = Ok n ->
     py_eq_int n (node_id s) = true ->
     find_successor send_request x s = (Ok (successor_answer succ), s)).
  { intros s succ n x Hs Hn Heq.
    unfold find_successor, bindM, get_successor, getsM, liftR, retM.
    rewrite Hs, Hn, Heq. reflexivity. }
  split; [|exact Hgen].
  intros i p x. cbn zeta.
  repeat split.
  apply (Hgen _ _ (JInt (generate_id sha1_int i p))); cbn; [reflexivity|reflexivity|].
  apply Z.eqb_refl.
Qed.

(** *** The local store *)

(** C3: for string [k] and [v], [insert(k, v)] succeeds and stores [v]
    under the hashed key, replacing any earlier entry there; a following
    [query(k)] answers [{"status": "success", "value": v}]. *)
Theorem insert_then_query (s : node) (k v : string) :
  let hk := hash_bytes sha1_int (utf8_encode k) in
  let s1 := set_data_store s (<[hk := JStr v]> (data_store s)) in
  insert sha1_int (JStr k) (JStr v) s =
    (Ok (status_message "success" ("Inserted " +:+ k +:+ " -> " +:+ v)), s1) /\
  data_store s1 !! hk = Some (JStr v) /\
  query sha1_int (JStr k) s1 = (Ok (value_answer (JStr v)), s1).
Proof.
  cbn zeta. split; [reflexivity|].
  assert (Hl : data_store (set_data_store s (<[hash_bytes sha1_int (utf8_encode k) := JStr v]> (data_store s)))
                 !! hash_bytes sha1_int (utf8_encode k) = Some (JStr v))
    by (cbn; apply lookup_insert_eq).
  split; [exact Hl|].
  unfold query, bindM, liftR, getsM. cbn [py_encode]. rewrite Hl. reflexivity.
Qed.

(** C4: [delete(k)] on a string [k] answers "Key not found" and changes
    nothing when no entry is stored under the hashed key, and removes the
    entry and answers success when one is; either way a following
    [query(k)] answers "Key not found". *)
Theorem delete_then_query_not_found (s : node) (k : string) :
  let hk := hash_bytes sha1_int (utf8_encode k) in
  (data_store s !! hk = None ->
     delete_key sha1_int (JStr k) s = (Ok (status_message "error" "Key not found"), s)) /\
  (forall v, data_store s !! hk = Some v ->
     delete_key sha1_int (JStr k) s =
       (Ok (status_message "success" ("Deleted " +:+ k)), set_data_store s (delete hk (data_store s)))) /\
  (let s1 := snd (delete_key sha1_int (JStr k) s) in
   query sha1_int (JStr k) s1 = (Ok (status_message "error" "Key not found"), s1)).
Proof.
  cbn zeta.
  unfold delete_key, query, bindM, liftR, getsM, retM, modifyM. cbn [py_encode fst snd].
  split; [intros H; now rewrite H|].
  split; [intros v H; now rewrite H|].
  destruct (data_store s !! hash_bytes sha1_int (utf8_encode k)) eqn:E; cbn.
  - now rewrite lookup_delete_eq.
  - now rewrite E.
Qed.

(** *** Identifiers *)

(** C5: [generate_id(ip, port)] is the digest of the UTF-8 bytes of
    [f"{ip}:{port}"] reduced modulo [2^160], a number in [[0, 2^160)]; the
    id of a constructed node is [generate_id(ip, port)] whatever the
    bootstrap arguments and the network; [insert], [query] and [delete]
    all use the same reduction of the digest of the UTF-8 bytes of the key. *)
Theorem ids_are_sha1_mod_2_160 :
  (forall (i : string) (p : Z),
     generate_id sha1_int i p = sha1_int (utf8_encode (i +:+ ":" +:+ py_int_str p)) mod 2 ^ 160 /\
     0 <= generate_id sha1_int i p < 2 ^ 160 /\
     (forall bi bp, node_id (chord_init sha1_int send_request i p bi bp) = generate_id sha1_int i p)) /\
  (forall (k : string) (v : json) (s : node),
     let hk := sha1_int (utf8_encode k) mod 2 ^ 160 in
     data_store (snd (insert sha1_int (JStr k) v s)) = <[hk := v]> (data_store s) /\
     fst (query sha1_int (JStr k) s) =
       Ok (match data_store s !! hk with
           | Some w => value_answer w
           | None => status_message "error" "Key not found"
           end) /\
     data_store (snd (delete_key sha1_int (JStr k) s)) = delete hk (data_store s)).
Proof.
  split.
  - intros i p. split; [reflexivity|]. split.
    + unfold generate_id. apply Z.mod_pos_bound. lia.
    + intros bi bp. unfold chord_init.
      destruct (bootstrap_address bi bp) as [[b q]|]; [|reflexivity].
      pose proof (join_frame b q (mkNode i p (generate_id sha1_int i p) ∅ None None)) as H.
      exact (proj1 H).
  - intros k v s. cbn zeta. split; [reflexivity|]. split.
    + unfold query, bindM, liftR, getsM. cbn [py_encode].
      unfold hash_bytes. destruct (_ !! _); reflexivity.
    + unfold delete_key, bindM, liftR, getsM, modifyM, retM. cbn [py_encode].
      unfold hash_bytes. destruct (_ !! _) eqn:E; cbn; [reflexivity|].
      symmetry. now apply delete_id.
Qed.

(** *** Construction *)

(** C6 (as amended): once [__init__] has set up its successor, a node
    built without a (truthy) bootstrap address has its own descriptor as
    successor; a joining node has a successor exactly when the bootstrap's
    answer to [find_successor] is a dict with status "success" and a
    "successor" field, and then the successor is that field's value
    (whatever the [update_predecessor] step does); after a transport
    failure, an error status or a malformed answer no successor is set. *)
Theorem chord_init_successor (i : string) (p : Z) (bi : option string) (bp : option Z) :
  successor (chord_init sha1_int send_request i p bi bp) =
  match bootstrap_address bi bp with
  | None => Some (descriptor (generate_id sha1_int i p) i p)
  | Some (b, q) =>
      let response := send_request (JStr b) (JInt q)
            (JObj [("command", JStr "find_successor"); ("node_id", JInt (generate_id sha1_int i p))]) in
      match py_subscript response "status" with
      | Ok st =>
          if py_eq_str st "success" then
            match py_subscript response "successor" with
            | Ok succ => Some succ
            | Raise _ => None
            end
          else None
      | Raise _ => None
      end
  end.
Proof.
  unfold chord_init.
  destruct (bootstrap_address bi bp) as [[b q]|]; [|reflexivity].
  cbn zeta. unfold join, catch_all, bindM, liftR, getsM, modifyM, retM. cbn [node_id snd].
  destruct (py_subscript _ "status") as [st|]; cbn; [|reflexivity].
  destruct (py_eq_str st "success").
  - destruct (py_subscript _ "successor") as [succ|]; cbn; [|reflexivity].
    destruct (py_subscript succ "ip"); cbn; [|reflexivity].
    destruct (py_subscript succ "port"); reflexivity.
  - destruct (py_subscript _ "message"); reflexivity.
Qed.

(** *** The predecessor *)

(** C7: [update_predecessor(node_id, ip, port)] overwrites the
    predecessor with [{node_id, ip, port}] whatever it held, with no check,
    and answers success; a decoded [update_predecessor] request carrying
    [ip] and [port] does exactly that; every other request leaves the
    predecessor as it was, no request clears a predecessor once set, the
    join leaves it alone and construction starts it at [None]. *)
Theorem update_predecessor_last_writer_wins :
  (forall (s : node) (nid i p : json),
     update_predecessor nid i p s =
       (Ok (status_message "success" "Predecessor updated"),
        set_predecessor s (Some (JObj [("node_id", nid); ("ip", i); ("port", p)])))) /\
  (forall (s : node) (fs : list (string * json)) (i p : json),
     dict_lookup fs "command" = Some (JStr "update_predecessor") ->
     dict_lookup fs "ip" = Some i ->
     dict_lookup fs "port" = Some p ->
     handle_request sha1_int send_request (RecvJson (JObj fs)) s =
       (Some (status_message "success" "Predecessor updated"),
        set_predecessor s (Some (JObj [("node_id", match dict_lookup fs "node_id" with
                                                      | Some v => v | None => JNull end);
                                       ("ip", i); ("port", p)])))) /\
  (forall (s : node) (req : json),
     py_get req "command" <> Ok (JStr "update_predecessor") ->
     predecessor (snd (process_request sha1_int send_request req s)) = predecessor s) /\
  (forall (s : node) (req : json),
     predecessor s <> None ->
     predecessor (snd (process_request sha1_int send_request req s)) <> None) /\
  (forall (s : node) (b : string) (q : Z),
     predecessor (snd (join send_request b q s)) = predecessor s) /\
  (forall (i : string) (p : Z) (bi : option string) (bp : option Z),
     predecessor (chord_init sha1_int send_request i p bi bp) = None).
Proof.
  split; [reflexivity|].
  split.
  { intros s fs i p Hc Hi Hp.
    unfold handle_request, process_request. rewrite !py_get_obj, Hc.
    cbn [bindM liftR py_eq_str]. cbn -[dict_lookup].
    unfold py_subscript. rewrite Hi, Hp. reflexivity. }
  split.
  { intros s req Hne.
    apply (process_request_step (fun s0 s1 => predecessor s1 = predecessor s0)).
    - reflexivity.
    - intros k v. apply insert_frame.
    - intros k. apply delete_frame.
    - intros Hc. contradiction. }
  split.
  { intros s req Hs.
    apply (process_request_step (fun s0 s1 => predecessor s0 <> None -> predecessor s1 <> None));
      [tauto | | | |exact Hs].
    - intros k v. destruct (insert_frame k v s) as (_ & _ & _ & -> & _). tauto.
    - intros k. destruct (delete_frame k s) as (_ & _ & _ & -> & _). tauto.
    - intros _ nid i p _. cbn. discriminate. }
  split.
  { intros s b q. apply join_frame. }
  intros i p bi bp. unfold chord_init.
  destruct (bootstrap_address bi bp) as [[b q]|]; [|reflexivity].
  apply join_frame.
Qed.

(** *** The dispatcher *)

(** C8: a decoded request object whose [command] is missing ([None]) or
    none of the five commands gets the answer
    [{"status": "error", "message": f"Invalid command received: {command}"}],
    which is sent; the node's attributes are unchanged. *)
Theorem invalid_command_error_reply (s : node) (fs : list (string * json)) :
  let command := match dict_lookup fs "command" with Some c => c | None => JNull end in
  (forall name, In name ["insert"; "query"; "delete"; "find_successor"; "update_predecessor"]%string ->
     command <> JStr name) ->
  handle_request sha1_int send_request (RecvJson (JObj fs)) s =
    (Some (status_message "error" ("Invalid command received: " +:+ py_format command)), s).
Proof.
  cbn zeta. intros Hnot.
  unfold handle_request, process_request. rewrite !py_get_obj. cbn [bindM liftR].
  set (c := match dict_lookup fs "command" with Some v => v | None => JNull end) in *.
  assert (Hf : forall name, In name ["insert"; "query"; "delete"; "find_successor"; "update_predecessor"]%string ->
             py_eq_str c name = false).
  { intros name Hin. destruct (py_eq_str c name) eqn:E; [|reflexivity].
    apply py_eq_str_true in E. exfalso. exact (Hnot name Hin E). }
  rewrite !Hf by (cbn; tauto).
  reflexivity.
Qed.

(** C9: the store operations leave the ring attributes alone, the ring
    operations leave the store alone: [insert] and [delete] change neither
    [successor], [predecessor] nor [node_id]; [update_predecessor] changes
    neither the store nor the successor; [query] and [find_successor]
    (forwarding or not) change no attribute at all. *)
Theorem store_and_ring_frames :
  (forall (k v : json) (s : node),
     let s' := snd (insert sha1_int k v s) in
     successor s' = successor s /\ predecessor s' = predecessor s /\ node_id s' = node_id s) /\
  (forall (k : json) (s : node),
     let s' := snd (delete_key sha1_int k s) in
     successor s' = successor s /\ predecessor s' = predecessor s /\ node_id s' = node_id s) /\
  (forall (nid i p : json) (s : node),
     let s' := snd (update_predecessor nid i p s) in
     data_store s' = data_store s /\ successor s' = successor s) /\
  (forall (k : json) (s : node), snd (query sha1_int k s) = s) /\
  (forall (x : json) (s : node), snd (find_successor send_request x s) = s).
Proof.
  split; [intros k v s; cbn zeta; destruct (insert_frame k v s) as (_ & _ & ? & ? & ?); tauto|].
  split; [intros k s; cbn zeta; destruct (delete_frame k s) as (_ & _ & ? & ? & ?); tauto|].
  split; [intros nid i p s; cbn; tauto|].
  split; [exact query_state|].
  exact find_successor_state.
Qed.

(** C10: a decoded request object with command insert, query or delete
    but no "key", or with command update_predecessor but no "ip" or no
    "port", makes the handler raise ([None.encode], [KeyError]); the
    connection is closed with no answer and the attributes are unchanged. *)
Theorem missing_field_drops_connection (s : node) (fs : list (string * json)) :
  ((dict_lookup fs "command" = Some (JStr "insert") \/
    dict_lookup fs "command" = Some (JStr "query") \/
    dict_lookup fs "command" = Some (JStr "delete")) ->
   dict_lookup fs "key" = None ->
   handle_request sha1_int send_request (RecvJson (JObj fs)) s = (None, s)) /\
  (dict_lookup fs "command" = Some (JStr "update_predecessor") ->
   (dict_lookup fs "ip" = None \/ dict_lookup fs "port" = None) ->
   handle_request sha1_int send_request (RecvJson (JObj fs)) s = (None, s)).
Proof.
  split.
  - intros Hc Hk.
    unfold handle_request, process_request. rewrite !py_get_obj, Hk. cbn [bindM liftR].
    destruct Hc as [Hc|[Hc|Hc]]; rewrite Hc; reflexivity.
  - intros Hc Hip.
    unfold handle_request, process_request. rewrite !py_get_obj, Hc. cbn [bindM liftR].
    cbn [py_eq_str]. cbn -[dict_lookup]. unfold py_subscript.
    destruct Hip as [Hi|Hp].
    + rewrite Hi. reflexivity.
    + destruct (dict_lookup fs "ip"); [|reflexivity].
      cbn -[dict_lookup]. rewrite Hp. reflexivity.
Qed.

(** ** Further properties of the node *)

Lemma process_request_successor (req : json) (s : node) :
  successor (snd (process_request sha1_int send_request req s)) = successor s.
Proof.
  apply (process_request_step (fun s0 s1 => successor s1 = successor s0)).
  - reflexivity.
  - intros k v. apply insert_frame.
  - intros k. apply delete_frame.
  - intros _ nid i p. reflexivity.
Qed.

(** X1: no request a node serves ever changes its successor: after
    construction the successor pointer is fixed for the node's lifetime. *)
Theorem successor_fixed_by_requests (r : received) (s : node) :
  successor (snd (handle_request sha1_int send_request r s)) = successor s.
Proof.
  destruct r as [| |req]; [reflexivity|reflexivity|].
  unfold handle_request.
  pose proof (process_request_successor req s) as H.
  destruct (process_request sha1_int send_request req s) as [[r'|e] s'].
  all: exact H.
Qed.

(** X2: on a node whose successor [{node_id: sid, ...}] has a smaller id
    than its own (the wrap-around point of the ring), [find_successor]
    never answers locally: every integer target is forwarded to the
    successor. *)
Theorem wraparound_forwards_every_target (s : node) (sid : Z) (sip : string) (sport t : Z) :
  successor s = Some (descriptor sid sip sport) ->
  sid < node_id s ->
  find_successor send_request (JInt t) s =
    (Ok (send_request (JStr sip) (JInt sport)
           (JObj [("command", JStr "find_successor"); ("node_id", JInt t)])), s).
Proof.
  intros Hs Hlt.
  unfold find_successor, bindM, get_successor, getsM, liftR, retM.
  rewrite Hs. cbn.
  replace (sid =? node_id s) with false by (symmetry; apply Z.eqb_neq; lia).
  destruct (node_id s <? t) eqn:E1; cbn; [|reflexivity].
  replace (t <=? sid) with false by (symmetry; apply Z.leb_gt; apply Z.ltb_lt in E1; lia).
  reflexivity.
Qed.

(** X3: a [find_successor] request whose [node_id] is missing or not a
    number is answered by a single-node ring (its successor's id is its
    own) but makes any other node raise [TypeError] on the comparison,
    so the connection is closed with no answer. *)
Theorem find_successor_request_without_numeric_target
    (s : node) (fs : list (string * json)) (sid : Z) (sip : string) (sport : Z) :
  dict_lookup fs "command" = Some (JStr "find_successor") ->
  py_num (match dict_lookup fs "node_id" with Some v => v | None => JNull end) = None ->
  successor s = Some (descriptor sid sip sport) ->
  handle_request sha1_int send_request (RecvJson (JObj fs)) s =
    (if sid =? node_id s then Some (successor_answer (descriptor sid sip sport)) else None, s).
Proof.
  intros Hc Hn Hs.
  unfold handle_request, process_request. rewrite !py_get_obj, Hc. cbn [bindM liftR].
  cbn [py_eq_str String.eqb Ascii.eqb Bool.eqb andb].
  unfold find_successor, bindM, get_successor, getsM, liftR, retM.
  rewrite Hs. cbn [py_subscript dict_lookup descriptor fold_left fst snd String.eqb Ascii.eqb Bool.eqb andb].
  cbn [py_eq_int py_num].
  destruct (sid =? node_id s); [reflexivity|].
  unfold py_lt. cbn [py_num]. rewrite Hn. reflexivity.
Qed.

(** X4: the store is keyed by the hashed key, not by the key: after
    [insert(k1, v)], [query(k2)] answers [v] for every [k2] whose hash
    equals that of [k1]. *)
Theorem colliding_keys_share_a_slot (s : node) (k1 k2 : string) (v : json) :
  hash_bytes sha1_int (utf8_encode k1) = hash_bytes sha1_int (utf8_encode k2) ->
  let s1 := snd (insert sha1_int (JStr k1) v s) in
  query sha1_int (JStr k2) s1 = (Ok (value_answer v), s1).
Proof.
  intros H. cbn zeta.
  unfold query, bindM, liftR, getsM, retM. cbn [py_encode].
  cbn [insert bindM liftR getsM modifyM retM py_encode snd data_store set_data_store].
  rewrite <- H, lookup_insert_eq. reflexivity.
Qed.

(** X5: [insert] and [delete] of a key leave the answer of [query] for any
    key with a different hash as it was. *)
Theorem store_ops_leave_other_keys (s : node) (k1 k2 : string) (v : json) :
  hash_bytes sha1_int (utf8_encode k1) <> hash_bytes sha1_int (utf8_encode k2) ->
  fst (query sha1_int (JStr k1) (snd (insert sha1_int (JStr k2) v s))) = fst (query sha1_int (JStr k1) s) /\
  fst (query sha1_int (JStr k1) (snd (delete_key sha1_int (JStr k2) s))) = fst (query sha1_int (JStr k1) s).
Proof.
  intros H. split.
  - unfold query, bindM, liftR, getsM, retM. cbn [py_encode].
    cbn [insert bindM liftR getsM modifyM retM py_encode snd data_store set_data_store].
    rewrite lookup_insert_ne by congruence. destruct (_ !! _); reflexivity.
  - unfold query, delete_key, bindM, liftR, getsM, retM, modifyM. cbn [py_encode].
    destruct (data_store s !! hash_bytes sha1_int (utf8_encode k2)); cbn [snd data_store set_data_store];
      [rewrite lookup_delete_ne by congruence|]; destruct (_ !! hash_bytes sha1_int (utf8_encode k1)); reflexivity.
Qed.

(** X6: an [insert] request without a "value" field succeeds and stores
    [None] under the hashed key, answering "Inserted <key> -> None". *)
Theorem insert_without_value_stores_none (s : node) (fs : list (string * json)) (k : string) :
  dict_lookup fs "command" = Some (JStr "insert") ->
  dict_lookup fs "key" = Some (JStr k) ->
  dict_lookup fs "value" = None ->
  handle_request sha1_int send_request (RecvJson (JObj fs)) s =
    (Some (status_message "success" ("Inserted " +:+ k +:+ " -> None")),
     set_data_store s (<[hash_bytes sha1_int (utf8_encode k) := JNull]> (data_store s))).
Proof.
  intros Hc Hk Hv.
  unfold handle_request, process_request. rewrite !py_get_obj, Hc, Hk, Hv. reflexivity.
Qed.

(** X7: an [insert], [query] or [delete] request whose "key" is not a
    string (missing, a number, a list, ...) raises [AttributeError] on
    [key.encode()]: no answer is sent and the node is unchanged. *)
Theorem non_string_key_drops_connection (s : node) (fs : list (string * json)) :
  (dict_lookup fs "command" = Some (JStr "insert") \/
   dict_lookup fs "command" = Some (JStr "query") \/
   dict_lookup fs "command" = Some (JStr "delete")) ->
  (forall k, dict_lookup fs "key" <> Some (JStr k)) ->
  handle_request sha1_int send_request (RecvJson (JObj fs)) s = (None, s).
Proof.
  intros Hc Hk.
  assert (He : py_encode (match dict_lookup fs "key" with Some v => v | None => JNull end)
               = Raise AttributeError).
  { destruct (dict_lookup fs "key") as [[]|]; try reflexivity. exfalso. eapply Hk. reflexivity. }
  unfold handle_request, process_request. rewrite !py_get_obj. cbn [bindM liftR].
  destruct Hc as [Hc|[Hc|Hc]]; rewrite Hc; cbn [py_eq_str String.eqb Ascii.eqb Bool.eqb andb];
    unfold insert, query, delete_key, bindM, liftR; rewrite He; reflexivity.
Qed.

(** X8: a decoded request that is not a JSON object (a list, a string, a
    number, [null]) raises [AttributeError] on [request.get]: no answer is
    sent and the node is unchanged. *)
Theorem non_object_request_drops_connection (s : node) (j : json) :
  (forall fs, j <> JObj fs) ->
  handle_request sha1_int send_request (RecvJson j) s = (None, s).
Proof.
  intros H. destruct j; try reflexivity. exfalso. eapply H. reflexivity.
Qed.

(** X9: a node joining through a single-node ring [B] (whose successor is
    its own descriptor), when [B]'s answer to the join's [find_successor]
    request reaches it intact, takes [B]'s descriptor as its successor,
    whatever its own id; its predecessor and store are untouched. *)
Theorem join_through_lone_bootstrap (s B : node) (b : string) (q : Z) :
  successor B = Some (descriptor (node_id B) (ip B) (port B)) ->
  (forall r, fst (process_request sha1_int send_request
                    (JObj [("command", JStr "find_successor"); ("node_id", JInt (node_id s))]) B) = Ok r ->
     send_request (JStr b) (JInt q)
       (JObj [("command", JStr "find_successor"); ("node_id", JInt (node_id s))]) = r) ->
  let s' := snd (join send_request b q s) in
  successor s' = Some (descriptor (node_id B) (ip B) (port B)) /\
  predecessor s' = predecessor s /\ data_store s' = data_store s.
Proof.
  intros HB Hnet.
  assert (Hans : send_request (JStr b) (JInt q)
       (JObj [("command", JStr "find_successor"); ("node_id", JInt (node_id s))])
       = successor_answer (descriptor (node_id B) (ip B) (port B))).
  { apply Hnet. unfold process_request. cbn [py_get dict_lookup fold_left fst snd String.eqb Ascii.eqb Bool.eqb andb bindM liftR].
    cbn [py_eq_str String.eqb Ascii.eqb Bool.eqb andb].
    unfold find_successor, bindM, get_successor, getsM, liftR, retM. rewrite HB.
    cbn. rewrite Z.eqb_refl. reflexivity. }
  cbn zeta.
  unfold join, catch_all, bindM, liftR, getsM, modifyM, retM. cbn zeta. rewrite Hans.
  cbn. repeat split; reflexivity.
Qed.

(** X10: when a single-node ring [B] processes the announcement
    [{"command": "update_predecessor", "node_id": j, "ip": i, "port": p}] of
    a joining node, its predecessor becomes [{j, i, p}] but its successor
    stays itself, so it still answers every [find_successor] with its own
    descriptor: the ring never gains a second member on [B]'s side. *)
Theorem announcement_keeps_bootstrap_alone (B : node) (j : Z) (i : string) (p : Z) :
  successor B = Some (descriptor (node_id B) (ip B) (port B)) ->
  let B' := snd (process_request sha1_int send_request
                   (JObj [("command", JStr "update_predecessor"); ("node_id", JInt j);
                          ("ip", JStr i); ("port", JInt p)]) B) in
  predecessor B' = Some (descriptor j i p) /\
  successor B' = successor B /\
  (forall x, find_successor send_request x B' =
               (Ok (successor_answer (descriptor (node_id B) (ip B) (port B))), B')).
Proof.
  intros HB. cbn zeta.
  assert (HB' : snd (process_request sha1_int send_request
                   (JObj [("command", JStr "update_predecessor"); ("node_id", JInt j);
                          ("ip", JStr i); ("port", JInt p)]) B)
                = set_predecessor B (Some (descriptor j i p))) by reflexivity.
  rewrite HB'.
  split; [reflexivity|]. split; [reflexivity|].
  intros x. unfold find_successor, bindM, get_successor, getsM, liftR, retM.
  cbn [set_predecessor successor]. rewrite HB. cbn. rewrite Z.eqb_refl. reflexivity.
Qed.

(** X11: the script started with an argument list of any length other
    than 3 or 5 ([sys.argv], script name included) prints the usage and
    exits with status 1, creating no node. *)
Theorem main_wrong_argument_count (argv : list string) :
  length argv <> 3%nat -> length argv <> 5%nat ->
  main_launch sha1_int send_request argv = ExitUsage 1.
Proof.
  intros H3 H5.
  destruct argv as [|a [|b [|c [|d [|e [|f r]]]]]]; cbn in *; try reflexivity; congruence.
Qed.

(** X12: [node.py <ip> <port>] with a port text that [int()] accepts
    starts a single-node ring: id [generate_id(ip, port)], its own
    descriptor as successor, no predecessor and an empty store. *)
Theorem main_bootstrap_start (prog i p : string) (pz : Z) :
  py_int p = Some pz ->
  main_launch sha1_int send_request [prog; i; p] =
    Running (mkNode i pz (generate_id sha1_int i pz) ∅ None
                    (Some (descriptor (generate_id sha1_int i pz) i pz))).
Proof. intros H. cbn. rewrite H. reflexivity. Qed.

(** X13: [node.py <ip> <port> <bootstrap_ip> <bootstrap_port>] whose
    bootstrap ip is empty or whose bootstrap port parses to 0 does not
    join: the node starts as a single-node ring, exactly as with two
    arguments. *)
Theorem main_falsy_bootstrap_starts_alone (prog i p bi bp : string) (pz bpz : Z) :
  py_int p = Some pz -> py_int bp = Some bpz ->
  (bi = EmptyString \/ bpz = 0) ->
  main_launch sha1_int send_request [prog; i; p; bi; bp] =
    main_launch sha1_int send_request [prog; i; p].
Proof.
  intros Hp Hbp Hf. cbn [main_launch]. rewrite Hp, Hbp.
  unfold chord_init, bootstrap_address.
  destruct Hf as [->| ->]; cbn; [reflexivity|].
  rewrite andb_false_r. reflexivity.
Qed.

(** X14: [delete(k)] right after [insert(k, v)] on a node that had no entry
    under [k]'s hash succeeds and gives back exactly the node before the
    insert. *)
Theorem insert_then_delete_restores (s : node) (k : string) (v : json) :
  data_store s !! hash_bytes sha1_int (utf8_encode k) = None ->
  delete_key sha1_int (JStr k) (snd (insert sha1_int (JStr k) v s)) =
    (Ok (status_message "success" ("Deleted " +:+ k)), s).
Proof.
  intros H.
  unfold delete_key, bindM, liftR, getsM, modifyM, retM. cbn [py_encode].
  cbn [insert bindM liftR getsM modifyM retM py_encode snd data_store set_data_store].
  rewrite lookup_insert_eq. cbn.
  rewrite delete_insert_id by exact H.
  destruct s; reflexivity.
Qed.

(** X15: after the unused [join_network] has stored the tuple
    [(bootstrap_ip, bootstrap_port)] as successor, every [find_successor]
    raises [TypeError] ([tuple] indices must be integers), so the node
    can route nothing. *)
Theorem join_network_breaks_routing (b : string) (q : Z) (s : node) (x : json) :
  fst (find_successor send_request x (snd (join_network b q s))) = Raise TypeError.
Proof. reflexivity. Qed.

(** X16: a freshly constructed node, bootstrap or joining, successful
    join or not, has an empty store and no predecessor: every [query]
    answers "Key not found". *)
Theorem fresh_node_is_empty (i : string) (p : Z) (bi : option string) (bp : option Z) (k : string) :
  let s := chord_init sha1_int send_request i p bi bp in
  data_store s = ∅ /\ predecessor s = None /\
  query sha1_int (JStr k) s = (Ok (status_message "error" "Key not found"), s).
Proof.
  cbn zeta.
  assert (Hd : data_store (chord_init sha1_int send_request i p bi bp) = ∅ /\
               predecessor (chord_init sha1_int send_request i p bi bp) = None).
  { unfold chord_init. destruct (bootstrap_address bi bp) as [[b q]|]; [|split; reflexivity].
    destruct (join_frame b q (mkNode i p (generate_id sha1_int i p) ∅ None None)) as (_ & _ & _ & Hp & Hs).
    split; assumption. }
  destruct Hd as [Hd Hp]. split; [exact Hd|]. split; [exact Hp|].
  unfold query, bindM, liftR, getsM, retM. cbn [py_encode]. rewrite Hd, lookup_empty. reflexivity.
Qed.

End Proofs.

(* ------------------------------------------------------------------ *)
(** ** Concrete scenarios *)

(** C6 counterexample: a node told to join through 127.0.0.1:5000 while
    that address refuses connections ends its construction with no
    successor at all. *)
Lemma failed_join_leaves_no_successor :
  successor (chord_init sample_sha1 refused_network "127.0.0.1" 5001
               (Some "127.0.0.1"%string) (Some 5000)) = None.
Proof. vm_compute. reflexivity. Qed.

(** The joined node's successor is 127.0.0.1:5000 (id 692), its own id is
    693; a target 700 lies outside (693, 692] and is forwarded. *)
Lemma find_successor_interval_or_forward_witness :
  successor joined_node = Some (descriptor 692 "127.0.0.1" 5000) /\
  692 <> node_id joined_node /\
  find_successor answering_network (JInt 700) joined_node =
    (Ok (if (node_id joined_node <? 700) && (700 <=? 692)
         then successor_answer (descriptor 692 "127.0.0.1" 5000)
         else answering_network (JStr "127.0.0.1") (JInt 5000)
                (JObj [("command", JStr "find_successor"); ("node_id", JInt 700)])), joined_node).
Proof.
  assert (H1 : successor joined_node = Some (descriptor 692 "127.0.0.1" 5000)) by (vm_compute; reflexivity).
  assert (H2 : 692 <> node_id joined_node) by (vm_compute; discriminate).
  split; [exact H1|]. split; [exact H2|].
  exact (find_successor_interval_or_forward answering_network joined_node 692 "127.0.0.1" 5000 700 H1 H2).
Defined.

(** A [shutdown] request (the command is commented out in the source) is
    answered as an invalid command. *)
Lemma invalid_command_error_reply_witness :
  (forall name, In name ["insert"; "query"; "delete"; "find_successor"; "update_predecessor"]%string ->
     JStr "shutdown" <> JStr name) /\
  handle_request sample_sha1 refused_network (RecvJson (JObj [("command", JStr "shutdown")])) bootstrap_node =
    (Some (status_message "error" "Invalid command received: shutdown"), bootstrap_node).
Proof.
  assert (H : forall name, In name ["insert"; "query"; "delete"; "find_successor"; "update_predecessor"]%string ->
             JStr "shutdown" <> JStr name).
  { intros name Hin. cbn in Hin.
    repeat (destruct Hin as [<-|Hin]; [discriminate|]). contradiction. }
  split; [exact H|].
  exact (invalid_command_error_reply sample_sha1 refused_network bootstrap_node
           [("command", JStr "shutdown")] H).
Defined.

(** A request with no [command] field is answered with
    "Invalid command received: None". *)
Example missing_command_reply :
  handle_request sample_sha1 refused_network (RecvJson (JObj [("key", JStr "song")])) bootstrap_node =
    (Some (status_message "error" "Invalid command received: None"), bootstrap_node).
Proof. vm_compute. reflexivity. Qed.

(** The joined node sits at the wrap-around point (own id 693, successor
    id 692): target 700 is forwarded. *)
Lemma wraparound_forwards_every_target_witness :
  successor joined_node = Some (descriptor 692 "127.0.0.1" 5000) /\
  692 < node_id joined_node /\
  find_successor answering_network (JInt 700) joined_node =
    (Ok (answering_network (JStr "127.0.0.1") (JInt 5000)
           (JObj [("command", JStr "find_successor"); ("node_id", JInt 700)])), joined_node).
Proof.
  assert (H1 : successor joined_node = Some (descriptor 692 "127.0.0.1" 5000)) by (vm_compute; reflexivity).
  assert (H2 : 692 < node_id joined_node) by (vm_compute; reflexivity).
  split; [exact H1|]. split; [exact H2|].
  exact (wraparound_forwards_every_target answering_network joined_node 692 "127.0.0.1" 5000 700 H1 H2).
Defined.

(** A [find_successor] request with no [node_id] sent to the joined node
    gets no answer. *)
Lemma find_successor_request_without_numeric_target_witness :
  dict_lookup [("command", JStr "find_successor")] "command" = Some (JStr "find_successor") /\
  py_num (match dict_lookup [("command", JStr "find_successor")] "node_id" with
          | Some v => v | None => JNull end) = None /\
  successor joined_node = Some (descriptor 692 "127.0.0.1" 5000) /\
  handle_request sample_sha1 answering_network (RecvJson (JObj [("command", JStr "find_successor")]))
    joined_node = (None, joined_node).
Proof.
  assert (H1 : dict_lookup [("command", JStr "find_successor")] "command" = Some (JStr "find_successor"))
    by reflexivity.
  assert (H2 : py_num (match dict_lookup [("command", JStr "find_successor")] "node_id" with
                       | Some v => v | None => JNull end) = None) by reflexivity.
  assert (H3 : successor joined_node = Some (descriptor 692 "127.0.0.1" 5000)) by (vm_compute; reflexivity).
  split; [exact H1|]. split; [exact H2|]. split; [exact H3|].
  pose proof (find_successor_request_without_numeric_target sample_sha1 answering_network
                joined_node _ 692 "127.0.0.1" 5000 H1 H2 H3) as H.
  rewrite H. vm_compute. reflexivity.
Defined.

(** Under the byte-sum digest "ab" and "ba" collide. *)
Lemma colliding_keys_share_a_slot_witness :
  hash_bytes sample_sha1 (utf8_encode "ab") = hash_bytes sample_sha1 (utf8_encode "ba") /\
  query sample_sha1 (JStr "ba") (snd (insert sample_sha1 (JStr "ab") (JStr "x") bootstrap_node)) =
    (Ok (value_answer (JStr "x")), snd (insert sample_sha1 (JStr "ab") (JStr "x") bootstrap_node)).
Proof.
  assert (H : hash_bytes sample_sha1 (utf8_encode "ab") = hash_bytes sample_sha1 (utf8_encode "ba"))
    by reflexivity.
  split; [exact H|].
  exact (colliding_keys_share_a_slot sample_sha1 bootstrap_node "ab" "ba" (JStr "x") H).
Defined.

Lemma store_ops_leave_other_keys_witness :
  hash_bytes sample_sha1 (utf8_encode "a") <> hash_bytes sample_sha1 (utf8_encode "b") /\
  fst (query sample_sha1 (JStr "a") (snd (insert sample_sha1 (JStr "b") (JStr "x") bootstrap_node)))
    = fst (query sample_sha1 (JStr "a") bootstrap_node) /\
  fst (query sample_sha1 (JStr "a") (snd (delete_key sample_sha1 (JStr "b") bootstrap_node)))
    = fst (query sample_sha1 (JStr "a") bootstrap_node).
Proof.
  assert (H : hash_bytes sample_sha1 (utf8_encode "a") <> hash_bytes sample_sha1 (utf8_encode "b"))
    by (vm_compute; discriminate).
  split; [exact H|].
  exact (store_ops_leave_other_keys sample_sha1 bootstrap_node "a" "b" (JStr "x") H).
Defined.

Lemma insert_without_value_stores_none_witness :
  dict_lookup [("command", JStr "insert"); ("key", JStr "song")] "command" = Some (JStr "insert") /\
  dict_lookup [("command", JStr "insert"); ("key", JStr "song")] "key" = Some (JStr "song") /\
  dict_lookup [("command", JStr "insert"); ("key", JStr "song")] "value" = None /\
  handle_request sample_sha1 refused_network
    (RecvJson (JObj [("command", JStr "insert"); ("key", JStr "song")])) bootstrap_node =
    (Some (status_message "success" "Inserted song -> None"),
     set_data_store bootstrap_node
       (<[hash_bytes sample_sha1 (utf8_encode "song") := JNull]> (data_store bootstrap_node))).
Proof.
  assert (H1 : dict_lookup [("command", JStr "insert"); ("key", JStr "song")] "command" = Some (JStr "insert"))
    by reflexivity.
  assert (H2 : dict_lookup [("command", JStr "insert"); ("key", JStr "song")] "key" = Some (JStr "song"))
    by reflexivity.
  assert (H3 : dict_lookup [("command", JStr "insert"); ("key", JStr "song")] "value" = None)
    by reflexivity.
  split; [exact H1|]. split; [exact H2|]. split; [exact H3|].
  exact (insert_without_value_stores_none sample_sha1 refused_network bootstrap_node _ "song" H1 H2 H3).
Defined.

Lemma non_string_key_drops_connection_witness :
  (dict_lookup [("command", JStr "query"); ("key", JInt 7)] "command" = Some (JStr "insert") \/
   dict_lookup [("command", JStr "query"); ("key", JInt 7)] "command" = Some (JStr "query") \/
   dict_lookup [("command", JStr "query"); ("key", JInt 7)] "command" = Some (JStr "delete")) /\
  (forall k, dict_lookup [("command", JStr "query"); ("key", JInt 7)] "key" <> Some (JStr k)) /\
  handle_request sample_sha1 refused_network
    (RecvJson (JObj [("command", JStr "query"); ("key", JInt 7)])) bootstrap_node = (None, bootstrap_node).
Proof.
  assert (H1 : dict_lookup [("command", JStr "query"); ("key", JInt 7)] "command" = Some (JStr "insert") \/
               dict_lookup [("command", JStr "query"); ("key", JInt 7)] "command" = Some (JStr "query") \/
               dict_lookup [("command", JStr "query"); ("key", JInt 7)] "command" = Some (JStr "delete"))
    by (right; left; reflexivity).
  assert (H2 : forall k, dict_lookup [("command", JStr "query"); ("key", JInt 7)] "key" <> Some (JStr k))
    by (intros k; vm_compute; discriminate).
  split; [exact H1|]. split; [exact H2|].
  exact (non_string_key_drops_connection sample_sha1 refused_network bootstrap_node _ H1 H2).
Defined.

Lemma non_object_request_drops_connection_witness :
  (forall fs, JList [JInt 1] <> JObj fs) /\
  handle_request sample_sha1 refused_network (RecvJson (JList [JInt 1])) bootstrap_node = (None, bootstrap_node).
Proof.
  assert (H : forall fs, JList [JInt 1] <> JObj fs) by (intros fs; discriminate).
  split; [exact H|].
  exact (non_object_request_drops_connection sample_sha1 refused_network bootstrap_node _ H).
Defined.

(** The node at 127.0.0.1:5001 (id 693) joining the lone bootstrap node. *)
Lemma join_through_lone_bootstrap_witness :
  let s := mkNode "127.0.0.1" 5001 693 ∅ None None in
  successor bootstrap_node = Some (descriptor (node_id bootstrap_node) (ip bootstrap_node) (port bootstrap_node)) /\
  successor (snd (join answering_network "127.0.0.1" 5000 s))
    = Some (descriptor (node_id bootstrap_node) (ip bootstrap_node) (port bootstrap_node)).
Proof.
  cbn zeta.
  assert (H1 : successor bootstrap_node
               = Some (descriptor (node_id bootstrap_node) (ip bootstrap_node) (port bootstrap_node)))
    by (vm_compute; reflexivity).
  assert (H2 : forall r, fst (process_request sample_sha1 answering_network
                    (JObj [("command", JStr "find_successor"); ("node_id", JInt 693)]) bootstrap_node) = Ok r ->
     answering_network (JStr "127.0.0.1") (JInt 5000)
       (JObj [("command", JStr "find_successor"); ("node_id", JInt 693)]) = r).
  { intros r H. vm_compute in H. injection H as <-. vm_compute. reflexivity. }
  split; [exact H1|].
  exact (proj1 (join_through_lone_bootstrap sample_sha1 answering_network
                  (mkNode "127.0.0.1" 5001 693 ∅ None None) bootstrap_node "127.0.0.1" 5000 H1 H2)).
Defined.

Lemma announcement_keeps_bootstrap_alone_witness :
  successor bootstrap_node = Some (descriptor (node_id bootstrap_node) (ip bootstrap_node) (port bootstrap_node)) /\
  predecessor (snd (process_request sample_sha1 refused_network
                   (JObj [("command", JStr "update_predecessor"); ("node_id", JInt 693);
                          ("ip", JStr "127.0.0.1"); ("port", JInt 5001)]) bootstrap_node))
    = Some (descriptor 693 "127.0.0.1" 5001).
Proof.
  assert (H : successor bootstrap_node
              = Some (descriptor (node_id bootstrap_node) (ip bootstrap_node) (port bootstrap_node)))
    by (vm_compute; reflexivity).
  split; [exact H|].
  exact (proj1 (announcement_keeps_bootstrap_alone sample_sha1 refused_network bootstrap_node
                  693 "127.0.0.1" 5001 H)).
Defined.

Lemma main_wrong_argument_count_witness :
  length ["node.py"; "127.0.0.1"]%string <> 3%nat /\ length ["node.py"; "127.0.0.1"]%string <> 5%nat /\
  main_launch sample_sha1 refused_network ["node.py"; "127.0.0.1"]%string = ExitUsage 1.
Proof.
  assert (H3 : length ["node.py"; "127.0.0.1"]%string <> 3%nat) by (cbn; lia).
  assert (H5 : length ["node.py"; "127.0.0.1"]%string <> 5%nat) by (cbn; lia).
  split; [exact H3|]. split; [exact H5|].
  exact (main_wrong_argument_count sample_sha1 refused_network _ H3 H5).
Defined.

Lemma main_bootstrap_start_witness :
  py_int " 5000" = Some 5000 /\
  main_launch sample_sha1 refused_network ["node.py"; "127.0.0.1"; " 5000"]%string =
    Running (mkNode "127.0.0.1" 5000 (generate_id sample_sha1 "127.0.0.1" 5000) ∅ None
                    (Some (descriptor (generate_id sample_sha1 "127.0.0.1" 5000) "127.0.0.1" 5000))).
Proof.
  assert (H : py_int " 5000" = Some 5000) by reflexivity.
  split; [exact H|].
  exact (main_bootstrap_start sample_sha1 refused_network "node.py" "127.0.0.1" " 5000" 5000 H).
Defined.

Lemma main_falsy_bootstrap_starts_alone_witness :
  py_int "5001" = Some 5001 /\ py_int "0" = Some 0 /\
  main_launch sample_sha1 answering_network ["node.py"; "127.0.0.1"; "5001"; "127.0.0.1"; "0"]%string =
    main_launch sample_sha1 answering_network ["node.py"; "127.0.0.1"; "5001"]%string.
Proof.
  assert (H1 : py_int "5001" = Some 5001) by reflexivity.
  assert (H2 : py_int "0" = Some 0) by reflexivity.
  split; [exact H1|]. split; [exact H2|].
  exact (main_falsy_bootstrap_starts_alone sample_sha1 answering_network "node.py" "127.0.0.1" "5001"
           "127.0.0.1" "0" 5001 0 H1 H2 (or_intror eq_refl)).
Defined.

Lemma insert_then_delete_restores_witness :
  data_store bootstrap_node !! hash_bytes sample_sha1 (utf8_encode "song") = None /\
  delete_key sample_sha1 (JStr "song") (snd (insert sample_sha1 (JStr "song") (JStr "x") bootstrap_node)) =
    (Ok (status_message "success" "Deleted song"), bootstrap_node).
Proof.
  assert (H : data_store bootstrap_node !! hash_bytes sample_sha1 (utf8_encode "song") = None)
    by (vm_compute; reflexivity).
  split; [exact H|].
  exact (insert_then_delete_restores sample_sha1 bootstrap_node "song" (JStr "x") H).
Defined.
